(** * The Jira service façade of atlassian-dc-mcp

    A shallow embedding of [packages/jira/src/jira-service.ts]: the
    [JiraService] class (constructor, five operations, [validateConfig]),
    the process-wide [OpenAPI] configuration object of the generated client
    it writes to, and the operation wrapper [handleApiOperation] it routes
    every call through.

    JavaScript objects are finite maps from property names to values,
    [process.env] is a finite map from variable names to strings, error
    objects live in a heap and are referred to by location (so that
    "the same object" and "an equal copy" are different things), and a
    promise is represented by the way it settles. *)

From Stdlib Require Import ZArith.
From stdpp Require Import gmap strings list fin_maps.

Set Warnings "-register-all,-clear-no-such-hyp".

Local Open Scope Z_scope.
Local Open Scope string_scope.

(** ** JavaScript values *)

(** Plain data as it is passed to the generated client.  The spec declares
    the numeric parameters ([maxResults], [startAt]) as integers, hence [Z]. *)
Inductive value : Type :=
  | VUndefined
  | VNull
  | VBool (b : bool)
  | VNum (n : Z)
  | VStr (s : string)
  | VArr (xs : list value)
  | VObj (props : gmap string value).

(** An optional argument [x?: T] read as a value: [undefined] when absent. *)
Definition of_optional {A : Type} (inj : A → value) (o : option A) : value :=
  match o with
  | Some a => inj a
  | None => VUndefined
  end.

Definition VStrings (xs : list string) : value := VArr (VStr <$> xs).

(** ** Error objects and the heap *)

Definition loc := nat.

(** What this layer reads and writes of an [Error]: its [message] and its
    [cause], the latter a reference to another error object. *)
Record ErrorObj : Type := mkError {
  message : string;
  cause : option loc
}.

(** ** The generated client's configuration object *)

(** Modelled from the spec: the [OpenAPI] object exported by the generated
    client [./jira-client], which is not part of the sources at hand.  The
    spec's Connection Configuration is [{ baseUrl, token, apiVersion }];
    the fields carry the names the constructor assigns to. *)
Record OpenAPIConfig : Type := mkOpenAPI {
  BASE : string;
  TOKEN : string;
  VERSION : string
}.

(** The state a client call runs in: the [OpenAPI] singleton and the heap
    of error objects (allocation appends, a location is an index). *)
Record World : Type := mkWorld {
  OpenAPI : OpenAPIConfig;
  heap : list ErrorObj
}.

(** How a promise settles. *)
Inductive Settled : Type :=
  | Resolved (v : value)
  | Rejected (e : loc).

(** How a call of a zero-argument operation [() => Promise<T>] ends: it
    throws before a promise exists, or it returns a promise that settles. *)
Inductive OpResult : Type :=
  | OpThrows (e : loc)
  | OpReturns (p : Settled).

(** The calls the façade makes on the generated client ([SearchService] and
    [IssueService]), with their arguments in source order. *)
Inductive ClientCall : Type :=
  | SearchService_searchUsingSearchRequest (requestBody : value)
  | IssueService_getIssue (issueKey : string) (expand : option string)
  | IssueService_getComments (issueKey : string) (expand : option string)
  | IssueService_addComment
      (issueKey : string) (expand : option string) (requestBody : value)
  | IssueService_createIssue (flag : bool) (requestBody : value).

(** The state of a run: the world, [process.env], and the calls that have
    reached the generated client so far, oldest first.  The generated client
    is given the world only. *)
Record St : Type := mkSt {
  world : World;
  process_env : gmap string string;
  requests : list ClientCall
}.

Definition set_world (w : World) (s : St) : St :=
  mkSt w (process_env s) (requests s).

Definition set_OpenAPI (c : OpenAPIConfig) (s : St) : St :=
  set_world (mkWorld c (heap (world s))) s.

(** ** A state monad for the code that runs in [St] *)


Definition M (A : Type) : Type := St → A * St.

Definition ret {A : Type} (a : A) : M A := λ s, (a, s).

Definition bind {A B : Type} (m : M A) (k : A → M B) : M B :=
  λ s, let (a, s') := m s in k a s'.

Notation "'let!' x ':=' m 'in' k" := (bind m (λ x, k))
  (at level 10, x name, m at level 100, k at level 200).

Definition modify (f : St → St) : M unit := λ s, (tt, f s).

(** The assignments [OpenAPI.BASE = v], [OpenAPI.TOKEN = v] and
    [OpenAPI.VERSION = v]. *)
Definition assign_BASE (v : string) : M unit :=
  modify (λ s, set_OpenAPI (mkOpenAPI v (TOKEN (OpenAPI (world s)))
                                      (VERSION (OpenAPI (world s)))) s).

Definition assign_TOKEN (v : string) : M unit :=
  modify (λ s, set_OpenAPI (mkOpenAPI (BASE (OpenAPI (world s))) v
                                      (VERSION (OpenAPI (world s)))) s).

Definition assign_VERSION (v : string) : M unit :=
  modify (λ s, set_OpenAPI (mkOpenAPI (BASE (OpenAPI (world s)))
                                      (TOKEN (OpenAPI (world s))) v) s).

(** [new Error(msg, { cause })]: a fresh object at the end of the heap. *)
Definition newError (msg : string) (c : option loc) : M loc :=
  λ s, (length (heap (world s)),
        set_world (mkWorld (OpenAPI (world s))
                           (heap (world s) ++ [mkError msg c])) s).

(** [e.message], read through the heap. *)
Definition messageOf (e : loc) : M string :=
  λ s, (default "" (message <$> heap (world s) !! e), s).

(** ** The operation wrapper *)

(** Modelled from the spec: [handleApiOperation] of the package
    [@atlassian-dc-mcp/common], of which the sources at hand hold only the
    import and the call sites.  Spec 4.1 and 7: the wrapper invokes the
    operation; a resolved result is returned unchanged; when the operation
    rejects or throws, the wrapper rejects with one new error whose message
    is ["<context>: <underlying message>"] and whose cause is the underlying
    failure; it neither logs nor retries. *)
Definition handleApiOperation
    (operation : M OpResult) (errorMessage : string) : M Settled :=
  let! r := operation in
  match r with
  | OpReturns (Resolved v) => ret (Resolved v)
  | OpReturns (Rejected e) | OpThrows e =>
      let! m := messageOf e in
      let! e' := newError (errorMessage +:+ ": " +:+ m) (Some e) in
      ret (Rejected e')
  end.

(** ** The façade *)

(** An instance of [class JiraService]: the class declares no instance
    property, so an instance carries no data of its own. *)
Variant JiraService : Type := JiraServiceInstance.

(** The argument of [createIssue]. *)
Record CreateIssueParams : Type := mkCreateIssueParams {
  projectId : string;
  summary : string;
  description : string;
  issueTypeId : string;
  customFields : option (gmap string value)
}.

(** Object spread [{ ...a, ...b }]: the properties of [a], then those of
    [b], a later property replacing an earlier one of the same name. *)
Definition spread (a b : gmap string value) : gmap string value := b ∪ a.

(** JavaScript truthiness of [process.env[name]]: a string or [undefined]. *)
Definition truthy (o : option string) : bool :=
  match o with
  | Some s => negb (String.eqb s "")
  | None => false
  end.

Section Facade.

(** The generated client [./jira-client]: what a call does to the world
    and how it ends. *)
Variable client : ClientCall → World → OpResult * World.

(** A call of the generated client from inside an operation. *)
Definition invoke (c : ClientCall) : M OpResult :=
  λ s, let (r, w) := client c (world s) in
       (r, mkSt w (process_env s) (requests s ++ [c])).

Definition constructor
    (host token : string) (fullBaseUrl : option string) : M JiraService :=
  let! _ := assign_BASE
              (default ("https://" +:+ host +:+ "/rest") fullBaseUrl) in
  let! _ := assign_TOKEN token in
  let! _ := assign_VERSION "2" in
  ret JiraServiceInstance.

Definition searchIssues (this : JiraService) (jql : string)
    (startAt : option Z) (expand : option (list string))
    (maxResults : option Z) : M Settled :=
  let maxResults := default 10 maxResults in
  handleApiOperation
    (invoke (SearchService_searchUsingSearchRequest
       (VObj (<["jql" := VStr jql]>
             (<["maxResults" := VNum maxResults]>
             (<["expand" := of_optional VStrings expand]>
             (<["startAt" := of_optional VNum startAt]> ∅)))))))
    "Error searching issues".

Definition getIssue (this : JiraService)
    (issueKey : string) (expand : option string) : M Settled :=
  handleApiOperation (invoke (IssueService_getIssue issueKey expand))
    "Error getting issue".

Definition getIssueComments (this : JiraService)
    (issueKey : string) (expand : option string) : M Settled :=
  handleApiOperation (invoke (IssueService_getComments issueKey expand))
    "Error getting issue comments".

Definition postIssueComment (this : JiraService)
    (issueKey comment : string) : M Settled :=
  handleApiOperation
    (invoke (IssueService_addComment issueKey None
               (VObj {["body" := VStr comment]})))
    "Error posting issue comment".

Definition standardFields (params : CreateIssueParams) : gmap string value :=
  <["project" := VObj {["key" := VStr (projectId params)]}]>
  (<["summary" := VStr (summary params)]>
  (<["description" := VStr (description params)]>
  (<["issuetype" := VObj {["id" := VStr (issueTypeId params)]}]> ∅))).

Definition createIssue (this : JiraService)
    (params : CreateIssueParams) : M Settled :=
  handleApiOperation
    (let fields :=
       match customFields params with
       | Some custom => spread (standardFields params) custom
       | None => standardFields params
       end in
     invoke (IssueService_createIssue true
               (VObj {["fields" := VObj fields]})))
    "Error creating issue".

Definition validateConfig : M (list string) :=
  λ s,
    let requiredEnvVars := ["JIRA_API_TOKEN"] in
    let missingVars :=
      List.filter (λ varName, negb (truthy (process_env s !! varName)))
                  requiredEnvVars in
    let missingVars :=
      if negb (truthy (process_env s !! "JIRA_HOST"))
         && negb (truthy (process_env s !! "JIRA_API_BASE_PATH"))
      then (missingVars ++ ["JIRA_HOST or JIRA_API_BASE_PATH"])%list
      else missingVars in
    (missingVars, s).

End Facade.

(** ** Runs of façade calls *)

(** The operations a holder of a [JiraService] can ask for. *)
Inductive Operation : Type :=
  | DoSearchIssues (jql : string) (startAt : option Z)
      (expand : option (list string)) (maxResults : option Z)
  | DoGetIssue (issueKey : string) (expand : option string)
  | DoGetIssueComments (issueKey : string) (expand : option string)
  | DoPostIssueComment (issueKey comment : string)
  | DoCreateIssue (params : CreateIssueParams)
  | DoValidateConfig.

(** Everything a caller can do through this layer: construct a façade, or
    run an operation. *)
Inductive FacadeCall : Type :=
  | Construct (host token : string) (fullBaseUrl : option string)
  | Operate (op : Operation).

Section Runs.

Variable client : ClientCall → World → OpResult * World.

Definition operate (op : Operation) (s : St) : St :=
  match op with
  | DoSearchIssues jql startAt expand maxResults =>
      (searchIssues client JiraServiceInstance jql startAt expand maxResults s).2
  | DoGetIssue issueKey expand =>
      (getIssue client JiraServiceInstance issueKey expand s).2
  | DoGetIssueComments issueKey expand =>
      (getIssueComments client JiraServiceInstance issueKey expand s).2
  | DoPostIssueComment issueKey comment =>
      (postIssueComment client JiraServiceInstance issueKey comment s).2
  | DoCreateIssue params =>
      (createIssue client JiraServiceInstance params s).2
  | DoValidateConfig => (validateConfig s).2
  end.

Definition perform (c : FacadeCall) (s : St) : St :=
  match c with
  | Construct host token fullBaseUrl => (constructor host token fullBaseUrl s).2
  | Operate op => operate op s
  end.

Definition run (calls : list FacadeCall) (s : St) : St :=
  foldl (λ s c, perform c s) s calls.

End Runs.

(** The generated client reads its configuration object and never assigns
    to it. *)
Definition reads_config (client : ClientCall → World → OpResult * World) : Prop :=
  ∀ c w, OpenAPI (client c w).2 = OpenAPI w.

(** ** Concrete inputs *)

(** A state before any façade exists: the configuration object as a
    generated client ships it, no error object, an empty environment. *)
Definition s0 : St :=
  mkSt (mkWorld (mkOpenAPI "http://localhost" "" "1.0") []) ∅ [].

Definition with_env (env : gmap string string) (s : St) : St :=
  mkSt (world s) env (requests s).

(** A client that answers reads, refuses searches with a rejected promise
    and comments with a thrown error, and echoes a created issue. *)
Definition stub_client (c : ClientCall) (w : World) : OpResult * World :=
  match c with
  | SearchService_searchUsingSearchRequest _ =>
      (OpReturns (Rejected (length (heap w))),
       mkWorld (OpenAPI w) (heap w ++ [mkError "Unauthorized" None]))
  | IssueService_getIssue issueKey _ =>
      (OpReturns (Resolved (VObj {["key" := VStr issueKey]})), w)
  | IssueService_getComments _ _ =>
      (OpReturns (Resolved (VObj {["comments" := VArr []]})), w)
  | IssueService_addComment _ _ _ =>
      (OpThrows (length (heap w)),
       mkWorld (OpenAPI w) (heap w ++ [mkError "Network Error" None]))
  | IssueService_createIssue _ requestBody =>
      (OpReturns (Resolved requestBody), w)
  end.

(** ** Vocabulary for whole-layer properties *)

(** Whether a call through this layer reaches the generated client: the
    five operations do, construction and [validateConfig] do not. *)
Definition reaches_client (c : FacadeCall) : bool :=
  match c with
  | Construct _ _ _ => false
  | Operate DoValidateConfig => false
  | Operate _ => true
  end.

(** The generated client creates error objects and leaves the existing ones
    where and as they are. *)
Definition allocates_only
    (client : ClientCall → World → OpResult * World) : Prop :=
  ∀ c w, heap w `prefix_of` heap (client c w).2.

(** [operation] settles as one call [c] of the client settles: resolved
    with the client's value in the client's world, or rejected with one new
    error, allocated after the client's, whose message is [errorMessage],
    a colon and the message of the client's error, and whose cause is the
    client's error. *)
Definition settles_as
    (client : ClientCall → World → OpResult * World)
    (operation : M Settled) (errorMessage : string) (c : ClientCall) : Prop :=
  ∀ s : St,
    let w := (client c (world s)).2 in
    process_env (operation s).2 = process_env s
    ∧ requests (operation s).2 = (requests s ++ [c])%list
    ∧ match (client c (world s)).1 with
      | OpReturns (Resolved v) =>
          (operation s).1 = Resolved v ∧ world (operation s).2 = w
      | OpReturns (Rejected e) | OpThrows e =>
          (operation s).1 = Rejected (length (heap w))
          ∧ OpenAPI (world (operation s).2) = OpenAPI w
          ∧ heap (world (operation s).2)
            = (heap w
               ++ [mkError (errorMessage +:+ ": "
                            +:+ default "" (message <$> heap w !! e))
                           (Some e)])%list
      end.

(** ** Properties of the wrapper and of a client call *)

Lemma newError_lookup (msg : string) (c : option loc) (s : St) :
  heap (world (newError msg c s).2) !! (newError msg c s).1
  = Some (mkError msg c).
Proof.
  cbn. rewrite lookup_app_r by lia.
  by replace (_ - _)%nat with 0%nat by lia.
Qed.

Lemma handleApiOperation_OpenAPI (operation : M OpResult) (C : string) (s : St) :
  OpenAPI (world (handleApiOperation operation C s).2)
  = OpenAPI (world (operation s).2).
Proof.
  unfold handleApiOperation, bind.
  destruct (operation s) as [[e | [v | e]] s1]; reflexivity.
Qed.

Lemma handleApiOperation_requests (operation : M OpResult) (C : string) (s : St) :
  requests (handleApiOperation operation C s).2 = requests (operation s).2.
Proof.
  unfold handleApiOperation, bind.
  destruct (operation s) as [[e | [v | e]] s1]; reflexivity.
Qed.

Lemma handleApiOperation_process_env
    (operation : M OpResult) (C : string) (s : St) :
  process_env (handleApiOperation operation C s).2
  = process_env (operation s).2.
Proof.
  unfold handleApiOperation, bind.
  destruct (operation s) as [[e | [v | e]] s1]; reflexivity.
Qed.

Lemma invoke_requests client (c : ClientCall) (s : St) :
  requests (invoke client c s).2 = (requests s ++ [c])%list.
Proof. unfold invoke. by destruct (client c (world s)). Qed.

Lemma invoke_OpenAPI client (c : ClientCall) (s : St) :
  reads_config client →
  OpenAPI (world (invoke client c s).2) = OpenAPI (world s).
Proof.
  intros Hc. unfold invoke. specialize (Hc c (world s)).
  by destruct (client c (world s)).
Qed.

Lemma stub_client_reads_config : reads_config stub_client.
Proof. intros [] w; reflexivity. Qed.

(** C1. For every context message [C] and every underlying failure [E], at
    location [e]: when the wrapped operation rejects or throws with [e], the
    wrapper rejects with one freshly allocated error whose message is
    [C ++ ": " ++ message of E] and whose cause is the location [e] itself;
    the object at [e] is still [E], and nothing else of the state changes. *)
Theorem handleApiOperation_failure
    (operation : M OpResult) (C : string) (s s1 : St) (e : loc) (E : ErrorObj) :
  operation s = (OpReturns (Rejected e), s1) ∨ operation s = (OpThrows e, s1) →
  heap (world s1) !! e = Some E →
  ∃ (e' : loc) (s' : St),
    handleApiOperation operation C s = (Rejected e', s')
    ∧ heap (world s')
      = (heap (world s1) ++ [mkError (C +:+ ": " +:+ message E) (Some e)])%list
    ∧ heap (world s') !! e'
      = Some (mkError (C +:+ ": " +:+ message E) (Some e))
    ∧ heap (world s') !! e = Some E
    ∧ e' ≠ e
    ∧ OpenAPI (world s') = OpenAPI (world s1)
    ∧ process_env s' = process_env s1
    ∧ requests s' = requests s1.
Proof.
  intros Hop HE.
  assert (Hrun : handleApiOperation operation C s
                 = (Rejected (length (heap (world s1))),
                    (newError (C +:+ ": " +:+ message E) (Some e) s1).2)).
  { unfold handleApiOperation, bind.
    destruct Hop as [-> | ->]; unfold messageOf; by rewrite HE. }
  eexists _, _. split; [exact Hrun |].
  pose proof (lookup_lt_Some _ _ _ HE) as Hlt.
  repeat split.
  - exact (newError_lookup _ _ s1).
  - cbn. by rewrite lookup_app_l.
  - lia.
Qed.

Lemma handleApiOperation_failure_witness :
  ∃ (e' : loc) (s' : St),
    handleApiOperation
      (invoke stub_client (IssueService_addComment "PROJ-1" None VNull))
      "Error posting issue comment" s0
    = (Rejected e', s')
    ∧ heap (world s')
      = [mkError "Network Error" None;
         mkError "Error posting issue comment: Network Error" (Some 0%nat)]
    ∧ heap (world s') !! e'
      = Some (mkError "Error posting issue comment: Network Error"
                      (Some 0%nat))
    ∧ heap (world s') !! 0%nat = Some (mkError "Network Error" None)
    ∧ e' ≠ 0%nat
    ∧ OpenAPI (world s') = OpenAPI (world s0)
    ∧ process_env s' = ∅
    ∧ requests s' = [IssueService_addComment "PROJ-1" None VNull].
Proof.
  exact (handleApiOperation_failure
           (invoke stub_client (IssueService_addComment "PROJ-1" None VNull))
           "Error posting issue comment" s0
           (mkSt (mkWorld (OpenAPI (world s0)) [mkError "Network Error" None])
                 ∅ [IssueService_addComment "PROJ-1" None VNull])
           0%nat (mkError "Network Error" None)
           (or_intror eq_refl) eq_refl).
Defined.

(** C6. When the wrapped operation resolves with [v], the wrapper resolves
    with that same [v], and the state it leaves is the state the operation
    left: no second call, no allocation, no other effect. *)
Theorem handleApiOperation_success
    (operation : M OpResult) (C : string) (s s1 : St) (v : value) :
  operation s = (OpReturns (Resolved v), s1) →
  handleApiOperation operation C s = (Resolved v, s1).
Proof.
  intros Hop. unfold handleApiOperation, bind. by rewrite Hop.
Qed.

Lemma handleApiOperation_success_witness :
  handleApiOperation (invoke stub_client (IssueService_getIssue "PROJ-1" None))
    "Error getting issue" s0
  = (Resolved (VObj {["key" := VStr "PROJ-1"]}),
     mkSt (world s0) ∅ [IssueService_getIssue "PROJ-1" None]).
Proof.
  apply (handleApiOperation_success
           (invoke stub_client (IssueService_getIssue "PROJ-1" None))
           "Error getting issue" s0).
  reflexivity.
Defined.

(** ** What each operation forwards to the generated client *)

Lemma spread_lookup (a b : gmap string value) (k : string) :
  spread a b !! k = match b !! k with Some v => Some v | None => a !! k end.
Proof.
  unfold spread. rewrite lookup_union.
  destruct (b !! k), (a !! k); reflexivity.
Qed.

Lemma standardFields_eq (params : CreateIssueParams) :
  standardFields params
  = list_to_map
      [("project", VObj {["key" := VStr (projectId params)]});
       ("summary", VStr (summary params));
       ("description", VStr (description params));
       ("issuetype", VObj {["id" := VStr (issueTypeId params)]})].
Proof. reflexivity. Qed.

(** C2. [createIssue] makes one create-issue call on the client, with the
    flag [true] and the body [{ fields }], where [fields] has, at every
    property name, the entry of [customFields] when there is one and the
    entry of the standard fields object
    [{ project: {key}, summary, description, issuetype: {id} }] otherwise;
    in particular a custom [summary] of ["override"] replaces a standard
    [summary] of ["original"]. *)
Theorem createIssue_forwards_merged_fields
    (client : ClientCall → World → OpResult * World)
    (this : JiraService) (params : CreateIssueParams) (s : St) :
  let std : gmap string value :=
    list_to_map
      [("project", VObj {["key" := VStr (projectId params)]});
       ("summary", VStr (summary params));
       ("description", VStr (description params));
       ("issuetype", VObj {["id" := VStr (issueTypeId params)]})] in
  ∃ fields : gmap string value,
    requests (createIssue client this params s).2
    = (requests s
       ++ [IssueService_createIssue true (VObj {["fields" := VObj fields]})])%list
    ∧ (∀ k : string,
         fields !! k
         = match customFields params with
           | Some custom =>
               match custom !! k with Some v => Some v | None => std !! k end
           | None => std !! k
           end)
    ∧ (summary params = "original" →
       customFields params = Some {["summary" := VStr "override"]} →
       fields !! "summary" = Some (VStr "override")).
Proof.
  intros std.
  exists (match customFields params with
          | Some custom => spread (standardFields params) custom
          | None => standardFields params
          end).
  split; [| split].
  - unfold createIssue.
    by rewrite handleApiOperation_requests, invoke_requests.
  - intros k. subst std. rewrite <- standardFields_eq.
    destruct (customFields params) as [custom |]; [apply spread_lookup | done].
  - intros _ ->. by rewrite spread_lookup.
Qed.

Lemma createIssue_forwards_merged_fields_witness :
  ∃ fields : gmap string value,
    requests
      (createIssue stub_client JiraServiceInstance
         (mkCreateIssueParams "PROJ" "original" "text" "3"
            (Some {["summary" := VStr "override"]})) s0).2
    = [IssueService_createIssue true (VObj {["fields" := VObj fields]})]
    ∧ fields !! "summary" = Some (VStr "override")
    ∧ fields !! "issuetype" = Some (VObj {["id" := VStr "3"]}).
Proof.
  destruct (createIssue_forwards_merged_fields stub_client JiraServiceInstance
              (mkCreateIssueParams "PROJ" "original" "text" "3"
                 (Some {["summary" := VStr "override"]})) s0)
    as (fields & Hreq & Hfields & Hsummary).
  exists fields. split; [exact Hreq | split].
  - apply Hsummary; reflexivity.
  - rewrite Hfields. reflexivity.
Defined.

(** C5. [searchIssues] makes one search call on the client, whose single
    argument is the object [{ jql, maxResults, expand, startAt }] built from
    its parameters, with [maxResults] equal to 10 when it is not supplied. *)
Theorem searchIssues_forwards_request
    (client : ClientCall → World → OpResult * World) (this : JiraService)
    (jql : string) (startAt : option Z) (expand : option (list string))
    (maxResults : option Z) (s : St) :
  requests (searchIssues client this jql startAt expand maxResults s).2
  = (requests s
     ++ [SearchService_searchUsingSearchRequest
           (VObj (list_to_map
              [("jql", VStr jql);
               ("maxResults",
                VNum match maxResults with Some n => n | None => 10 end);
               ("expand",
                match expand with
                | Some xs => VArr (VStr <$> xs)
                | None => VUndefined
                end);
               ("startAt",
                match startAt with
                | Some n => VNum n
                | None => VUndefined
                end)]))])%list.
Proof.
  unfold searchIssues.
  rewrite handleApiOperation_requests, invoke_requests.
  by destruct maxResults, expand, startAt.
Qed.

(** C8. [postIssueComment] makes one add-comment call on the client, for
    the given issue key, with [undefined] as second argument and the object
    [{ body: comment }] as request body, whatever the comment string is. *)
Theorem postIssueComment_forwards_body
    (client : ClientCall → World → OpResult * World) (this : JiraService)
    (issueKey comment : string) (s : St) :
  requests (postIssueComment client this issueKey comment s).2
  = (requests s
     ++ [IssueService_addComment issueKey None
           (VObj {["body" := VStr comment]})])%list.
Proof.
  unfold postIssueComment.
  by rewrite handleApiOperation_requests, invoke_requests.
Qed.

(** ** The constructor and the configuration object *)

Lemma constructor_OpenAPI
    (host token : string) (fullBaseUrl : option string) (s : St) :
  OpenAPI (world (constructor host token fullBaseUrl s).2)
  = mkOpenAPI (default ("https://" +:+ host +:+ "/rest") fullBaseUrl) token "2".
Proof. reflexivity. Qed.

(** C4. After construction the client's base URL is the [fullBaseUrl]
    override when one is supplied, and ["https://" ++ host ++ "/rest"] when
    none is. *)
Theorem constructor_BASE (host token : string) (s : St) :
  (∀ url : string,
     BASE (OpenAPI (world (constructor host token (Some url) s).2)) = url)
  ∧ BASE (OpenAPI (world (constructor host token None s).2))
    = "https://" +:+ host +:+ "/rest".
Proof. split; [intros url |]; reflexivity. Qed.

Lemma operate_OpenAPI client (op : Operation) (s : St) :
  reads_config client →
  OpenAPI (world (operate client op s)) = OpenAPI (world s).
Proof.
  intros Hc.
  destruct op; cbn [operate];
    try (unfold searchIssues, getIssue, getIssueComments, postIssueComment,
           createIssue;
         rewrite handleApiOperation_OpenAPI; by apply invoke_OpenAPI).
  reflexivity.
Qed.

Lemma run_operations_OpenAPI client (ops : list Operation) (s : St) :
  reads_config client →
  OpenAPI (world (run client (Operate <$> ops) s)) = OpenAPI (world s).
Proof.
  intros Hc. revert s.
  induction ops as [| op ops IH]; intros s; [reflexivity |].
  cbn. etrans; [apply IH |]. by apply operate_OpenAPI.
Qed.

Lemma perform_VERSION client (c : FacadeCall) (s : St) :
  reads_config client →
  VERSION (OpenAPI (world s)) = "2" →
  VERSION (OpenAPI (world (perform client c s))) = "2".
Proof.
  intros Hc Hv. destruct c as [host token fullBaseUrl | op]; cbn [perform].
  - by rewrite constructor_OpenAPI.
  - by rewrite operate_OpenAPI.
Qed.

(** C7, as the code has it.  Construction writes the base URL, the token
    and the version into the client's configuration object; provided the
    generated client only reads that object, no run of façade operations
    changes it; and it belongs to no instance: a later construction replaces
    it with its own base URL and token. *)
Theorem config_written_at_construction
    (client : ClientCall → World → OpResult * World)
    (host token : string) (fullBaseUrl : option string)
    (ops : list Operation) (s : St) :
  reads_config client →
  let s1 := (constructor host token fullBaseUrl s).2 in
  let s2 := run client (Operate <$> ops) s1 in
  OpenAPI (world s1)
  = mkOpenAPI match fullBaseUrl with
              | Some url => url
              | None => "https://" +:+ host +:+ "/rest"
              end token "2"
  ∧ OpenAPI (world s2) = OpenAPI (world s1)
  ∧ ∀ (host' token' : string) (fullBaseUrl' : option string),
      OpenAPI (world (constructor host' token' fullBaseUrl' s2).2)
      = mkOpenAPI match fullBaseUrl' with
                  | Some url => url
                  | None => "https://" +:+ host' +:+ "/rest"
                  end token' "2".
Proof.
  intros Hc s1 s2. split; [| split].
  - subst s1. rewrite constructor_OpenAPI. by destruct fullBaseUrl.
  - subst s2. by apply run_operations_OpenAPI.
  - intros host' token' fullBaseUrl'.
    rewrite constructor_OpenAPI. by destruct fullBaseUrl'.
Qed.

Lemma config_written_at_construction_witness :
  let s1 := (constructor "jira.example.org" "secret" None s0).2 in
  let s2 :=
    run stub_client
      (Operate <$> [DoGetIssue "PROJ-1" None;
                    DoSearchIssues "project = PROJ" None None None;
                    DoPostIssueComment "PROJ-1" "done"]) s1 in
  OpenAPI (world s1) = mkOpenAPI "https://jira.example.org/rest" "secret" "2"
  ∧ OpenAPI (world s2) = OpenAPI (world s1)
  ∧ ∀ (host' token' : string) (fullBaseUrl' : option string),
      OpenAPI (world (constructor host' token' fullBaseUrl' s2).2)
      = mkOpenAPI match fullBaseUrl' with
                  | Some url => url
                  | None => "https://" +:+ host' +:+ "/rest"
                  end token' "2".
Proof.
  exact (config_written_at_construction stub_client
           "jira.example.org" "secret" None
           [DoGetIssue "PROJ-1" None;
            DoSearchIssues "project = PROJ" None None None;
            DoPostIssueComment "PROJ-1" "done"] s0
           stub_client_reads_config).
Defined.

(** C7, as the claim states it, fails: the configuration a first façade
    was constructed with is replaced when a second façade is constructed. *)
Lemma second_construction_overwrites_config :
  let s1 := (constructor "jira-a.example.org" "token-a" None s0).2 in
  let s2 := (constructor "jira-b.example.org" "token-b" None s1).2 in
  OpenAPI (world s1)
  = mkOpenAPI "https://jira-a.example.org/rest" "token-a" "2"
  ∧ OpenAPI (world s2)
    = mkOpenAPI "https://jira-b.example.org/rest" "token-b" "2"
  ∧ OpenAPI (world s2) ≠ OpenAPI (world s1).
Proof. repeat split. discriminate. Qed.

(** C9. Every construction sets the API version to ["2"], whatever its
    arguments, and, provided the generated client only reads its
    configuration object, the version is still ["2"] after any further
    calls through this layer: operations and constructions alike. *)
Theorem VERSION_is_2
    (client : ClientCall → World → OpResult * World)
    (host token : string) (fullBaseUrl : option string)
    (calls : list FacadeCall) (s : St) :
  reads_config client →
  VERSION (OpenAPI (world (constructor host token fullBaseUrl s).2)) = "2"
  ∧ VERSION (OpenAPI (world
      (run client calls (constructor host token fullBaseUrl s).2))) = "2".
Proof.
  intros Hc. split; [reflexivity |].
  assert (Hinv : ∀ (cs : list FacadeCall) (s' : St),
             VERSION (OpenAPI (world s')) = "2" →
             VERSION (OpenAPI (world (run client cs s'))) = "2").
  { induction cs as [| c cs IH]; intros s' Hv; [exact Hv |].
    cbn. apply IH. by apply perform_VERSION. }
  by apply Hinv.
Qed.

Lemma VERSION_is_2_witness :
  VERSION (OpenAPI (world
    (constructor "jira.example.org" "secret" (Some "https://proxy/jira") s0).2))
  = "2"
  ∧ VERSION (OpenAPI (world
      (run stub_client
         [Operate (DoSearchIssues "project = PROJ" (Some 0) None (Some 50));
          Operate (DoGetIssueComments "PROJ-1" (Some "renderedBody"));
          Construct "other.example.org" "t" None;
          Operate (DoCreateIssue
                     (mkCreateIssueParams "PROJ" "s" "d" "3" None));
          Operate DoValidateConfig]
         (constructor "jira.example.org" "secret"
            (Some "https://proxy/jira") s0).2))) = "2".
Proof.
  exact (VERSION_is_2 stub_client "jira.example.org" "secret"
           (Some "https://proxy/jira")
           [Operate (DoSearchIssues "project = PROJ" (Some 0) None (Some 50));
            Operate (DoGetIssueComments "PROJ-1" (Some "renderedBody"));
            Construct "other.example.org" "t" None;
            Operate (DoCreateIssue
                       (mkCreateIssueParams "PROJ" "s" "d" "3" None));
            Operate DoValidateConfig] s0
           stub_client_reads_config).
Defined.

(** ** The configuration validator *)

Lemma validateConfig_result (s : St) :
  (validateConfig s).1
  = ((if truthy (process_env s !! "JIRA_API_TOKEN")
      then [] else ["JIRA_API_TOKEN"])
     ++ (if truthy (process_env s !! "JIRA_HOST")
            || truthy (process_env s !! "JIRA_API_BASE_PATH")
         then [] else ["JIRA_HOST or JIRA_API_BASE_PATH"]))%list.
Proof.
  unfold validateConfig; cbn.
  destruct (truthy (process_env s !! "JIRA_API_TOKEN")),
           (truthy (process_env s !! "JIRA_HOST")),
           (truthy (process_env s !! "JIRA_API_BASE_PATH")); reflexivity.
Qed.

Lemma truthy_Some (v : string) : v ≠ "" → truthy (Some v) = true.
Proof.
  intros Hv. cbn. destruct (String.eqb_spec v ""); [contradiction | reflexivity].
Qed.

Lemma truthy_empty_or_absent (env : gmap string string) (name k : string) :
  truthy (<[name := ""]> env !! k) = truthy (delete name env !! k).
Proof.
  rewrite lookup_insert, lookup_delete. by case_decide.
Qed.

Lemma truthy_false_iff (o : option string) :
  truthy o = false ↔ o = None ∨ o = Some "".
Proof.
  destruct o as [v |]; cbn; [| naive_solver].
  destruct (String.eqb_spec v ""); naive_solver.
Qed.

Lemma truthy_true_iff (o : option string) :
  truthy o = true ↔ ∃ v : string, o = Some v ∧ v ≠ "".
Proof.
  destruct o as [v |]; cbn; [| naive_solver].
  destruct (String.eqb_spec v ""); naive_solver.
Qed.

(** C3, as the code has it.  [validateConfig] returns its findings and
    leaves the state as it was; with none of the three variables in the
    environment it returns the token-variable name followed by the combined
    descriptor; with the token variable and the host variable both set to
    non-empty strings it returns the empty list. *)
Theorem validateConfig_reports_missing (s : St) :
  (validateConfig s).2 = s
  ∧ (process_env s !! "JIRA_API_TOKEN" = None →
     process_env s !! "JIRA_HOST" = None →
     process_env s !! "JIRA_API_BASE_PATH" = None →
     (validateConfig s).1
     = ["JIRA_API_TOKEN"; "JIRA_HOST or JIRA_API_BASE_PATH"])
  ∧ (∀ token host : string,
       process_env s !! "JIRA_API_TOKEN" = Some token →
       process_env s !! "JIRA_HOST" = Some host →
       token ≠ "" → host ≠ "" →
       (validateConfig s).1 = []).
Proof.
  split; [reflexivity | split].
  - intros Ht Hh Hb. by rewrite validateConfig_result, Ht, Hh, Hb.
  - intros token host Ht Hh Htoken Hhost.
    by rewrite validateConfig_result, Ht, Hh, !truthy_Some.
Qed.

Lemma validateConfig_reports_missing_witness :
  (validateConfig s0).1 = ["JIRA_API_TOKEN"; "JIRA_HOST or JIRA_API_BASE_PATH"]
  ∧ (validateConfig
       (with_env (<["JIRA_API_TOKEN" := "secret"]>
                    (<["JIRA_HOST" := "jira.example.org"]> ∅)) s0)).1 = [].
Proof.
  split.
  - apply (validateConfig_reports_missing s0); reflexivity.
  - apply (validateConfig_reports_missing
             (with_env (<["JIRA_API_TOKEN" := "secret"]>
                          (<["JIRA_HOST" := "jira.example.org"]> ∅)) s0)
             ) with (token := "secret") (host := "jira.example.org");
      [reflexivity | reflexivity | discriminate | discriminate].
Defined.

(** C3, as the claim states it, fails: with the token variable and the host
    variable both set, to the empty string, both names are returned. *)
Lemma validateConfig_set_but_empty :
  let env : gmap string string :=
    <["JIRA_API_TOKEN" := ""]> (<["JIRA_HOST" := ""]> ∅) in
  env !! "JIRA_API_TOKEN" = Some ""
  ∧ env !! "JIRA_HOST" = Some ""
  ∧ (validateConfig (with_env env s0)).1
    = ["JIRA_API_TOKEN"; "JIRA_HOST or JIRA_API_BASE_PATH"]
  ∧ (validateConfig (with_env env s0)).1 ≠ [].
Proof. repeat split. discriminate. Qed.

(** C10. Presence is tested by truthiness: the token-variable name is in
    the result exactly when the token variable is absent or empty, and the
    combined descriptor exactly when the host variable and the base-path
    variable are both absent or empty, so a variable set to a non-empty
    string is never reported.  A variable set to the empty string gives the
    same result as that variable being absent; an empty or absent token
    variable is reported, and so is an empty or absent host variable when
    the base-path variable is empty or absent too; and in every result the
    token-variable name stands before the combined descriptor. *)
Theorem validateConfig_empty_is_absent (s : St) :
  (∀ name : string,
     (validateConfig (with_env (<[name := ""]> (process_env s)) s)).1
     = (validateConfig (with_env (delete name (process_env s)) s)).1)
  ∧ "JIRA_API_TOKEN"
    ∈ (validateConfig
         (with_env (<["JIRA_API_TOKEN" := ""]> (process_env s)) s)).1
  ∧ "JIRA_API_TOKEN"
    ∈ (validateConfig
         (with_env (delete "JIRA_API_TOKEN" (process_env s)) s)).1
  ∧ (process_env s !! "JIRA_API_BASE_PATH" = None
     ∨ process_env s !! "JIRA_API_BASE_PATH" = Some "" →
     "JIRA_HOST or JIRA_API_BASE_PATH"
     ∈ (validateConfig
          (with_env (<["JIRA_HOST" := ""]> (process_env s)) s)).1
     ∧ "JIRA_HOST or JIRA_API_BASE_PATH"
       ∈ (validateConfig
            (with_env (delete "JIRA_HOST" (process_env s)) s)).1)
  ∧ (∀ i j : nat,
       (validateConfig s).1 !! i = Some "JIRA_API_TOKEN" →
       (validateConfig s).1 !! j = Some "JIRA_HOST or JIRA_API_BASE_PATH" →
       (i < j)%nat)
  ∧ ("JIRA_API_TOKEN" ∈ (validateConfig s).1
     ↔ process_env s !! "JIRA_API_TOKEN" = None
       ∨ process_env s !! "JIRA_API_TOKEN" = Some "")
  ∧ ("JIRA_HOST or JIRA_API_BASE_PATH" ∈ (validateConfig s).1
     ↔ (process_env s !! "JIRA_HOST" = None
        ∨ process_env s !! "JIRA_HOST" = Some "")
       ∧ (process_env s !! "JIRA_API_BASE_PATH" = None
          ∨ process_env s !! "JIRA_API_BASE_PATH" = Some "")).
Proof.
  split; [| split; [| split; [| split; [| split; [| split]]]]].
  - intros name. rewrite !validateConfig_result. cbn [with_env process_env].
    by rewrite !truthy_empty_or_absent.
  - rewrite validateConfig_result. cbn [with_env process_env].
    rewrite lookup_insert_eq. cbn. set_solver.
  - rewrite validateConfig_result. cbn [with_env process_env].
    rewrite lookup_delete_eq. cbn. set_solver.
  - intros Hb. rewrite !validateConfig_result. cbn [with_env process_env].
    rewrite lookup_insert_eq, lookup_delete_eq.
    rewrite !lookup_insert_ne, !lookup_delete_ne by discriminate.
    destruct Hb as [-> | ->]; cbn; set_solver.
  - intros i j. rewrite validateConfig_result.
    destruct (truthy (process_env s !! "JIRA_API_TOKEN")),
             (truthy (process_env s !! "JIRA_HOST")
              || truthy (process_env s !! "JIRA_API_BASE_PATH"));
      destruct i as [| [| i]], j as [| [| j]]; cbn;
      intros Hi Hj; try discriminate; lia.
  - rewrite <- truthy_false_iff, validateConfig_result.
    destruct (truthy (process_env s !! "JIRA_API_TOKEN")),
             (truthy (process_env s !! "JIRA_HOST")
              || truthy (process_env s !! "JIRA_API_BASE_PATH"));
      cbn; set_solver.
  - rewrite <- !truthy_false_iff, validateConfig_result.
    destruct (truthy (process_env s !! "JIRA_API_TOKEN")),
             (truthy (process_env s !! "JIRA_HOST")),
             (truthy (process_env s !! "JIRA_API_BASE_PATH"));
      cbn; set_solver.
Qed.

Lemma validateConfig_empty_is_absent_witness :
  ("JIRA_HOST or JIRA_API_BASE_PATH"
   ∈ (validateConfig (with_env (<["JIRA_HOST" := ""]> ∅) s0)).1
   ∧ "JIRA_HOST or JIRA_API_BASE_PATH"
     ∈ (validateConfig (with_env (delete "JIRA_HOST" ∅) s0)).1)
  ∧ (validateConfig s0).1 !! 0%nat = Some "JIRA_API_TOKEN"
  ∧ (validateConfig s0).1 !! 1%nat = Some "JIRA_HOST or JIRA_API_BASE_PATH"
  ∧ (0 < 1)%nat
  ∧ ("JIRA_API_TOKEN"
     ∉ (validateConfig
          (with_env (<["JIRA_API_TOKEN" := "secret"]> ∅) s0)).1)
  ∧ ("JIRA_HOST or JIRA_API_BASE_PATH"
     ∉ (validateConfig
          (with_env (<["JIRA_HOST" := "jira.example.org"]> ∅) s0)).1)
  ∧ ("JIRA_HOST or JIRA_API_BASE_PATH"
     ∈ (validateConfig
          (with_env (<["JIRA_API_TOKEN" := "secret"]> ∅) s0)).1).
Proof.
  split; [| split; [reflexivity | split; [reflexivity | split; [| split; [| split]]]]].
  - apply (validateConfig_empty_is_absent s0). left. reflexivity.
  - apply (validateConfig_empty_is_absent s0); reflexivity.
  - destruct (validateConfig_empty_is_absent
                (with_env (<["JIRA_API_TOKEN" := "secret"]> ∅) s0))
      as (_ & _ & _ & _ & _ & Htoken & _).
    intros Hin. apply Htoken in Hin. destruct Hin as [Hin | Hin]; discriminate Hin.
  - destruct (validateConfig_empty_is_absent
                (with_env (<["JIRA_HOST" := "jira.example.org"]> ∅) s0))
      as (_ & _ & _ & _ & _ & _ & Hdesc).
    intros Hin. apply Hdesc in Hin. destruct Hin as [[Hin | Hin] _]; discriminate Hin.
  - destruct (validateConfig_empty_is_absent
                (with_env (<["JIRA_API_TOKEN" := "secret"]> ∅) s0))
      as (_ & _ & _ & _ & _ & _ & Hdesc).
    apply Hdesc. split; left; reflexivity.
Defined.

(** ** Further properties of the operations *)

Lemma wrapped_call_settles
    (client : ClientCall → World → OpResult * World)
    (c : ClientCall) (errorMessage : string) :
  settles_as client (handleApiOperation (invoke client c) errorMessage)
             errorMessage c.
Proof.
  intros s. unfold handleApiOperation, bind, invoke. cbn zeta.
  destruct (client c (world s)) as [[e | [v | e]] w]; cbn; by repeat split.
Qed.

(** X1. [getIssue] makes one get-issue call on the client with the issue
    key and the [expand] argument in that order, [expand] being passed on
    as it came, absent or not. *)
Theorem getIssue_forwards
    (client : ClientCall → World → OpResult * World) (this : JiraService)
    (issueKey : string) (expand : option string) (s : St) :
  requests (getIssue client this issueKey expand s).2
  = (requests s ++ [IssueService_getIssue issueKey expand])%list.
Proof.
  unfold getIssue. by rewrite handleApiOperation_requests, invoke_requests.
Qed.

(** X2. [getIssueComments] makes one get-comments call on the client with
    the issue key and the [expand] argument in that order. *)
Theorem getIssueComments_forwards
    (client : ClientCall → World → OpResult * World) (this : JiraService)
    (issueKey : string) (expand : option string) (s : St) :
  requests (getIssueComments client this issueKey expand s).2
  = (requests s ++ [IssueService_getComments issueKey expand])%list.
Proof.
  unfold getIssueComments.
  by rewrite handleApiOperation_requests, invoke_requests.
Qed.

(** X3. Each of the five operations settles as its one client call
    settles, and a failure carries the operation's own context message:
    "Error searching issues", "Error getting issue", "Error getting issue
    comments", "Error posting issue comment", "Error creating issue". *)
Theorem operations_settle_as_client
    (client : ClientCall → World → OpResult * World) (this : JiraService) :
  (∀ jql startAt expand maxResults,
     settles_as client (searchIssues client this jql startAt expand maxResults)
       "Error searching issues"
       (SearchService_searchUsingSearchRequest
          (VObj (<["jql" := VStr jql]>
                (<["maxResults" := VNum (default 10 maxResults)]>
                (<["expand" := of_optional VStrings expand]>
                (<["startAt" := of_optional VNum startAt]> ∅)))))))
  ∧ (∀ issueKey expand,
       settles_as client (getIssue client this issueKey expand)
         "Error getting issue" (IssueService_getIssue issueKey expand))
  ∧ (∀ issueKey expand,
       settles_as client (getIssueComments client this issueKey expand)
         "Error getting issue comments"
         (IssueService_getComments issueKey expand))
  ∧ (∀ issueKey comment,
       settles_as client (postIssueComment client this issueKey comment)
         "Error posting issue comment"
         (IssueService_addComment issueKey None
            (VObj {["body" := VStr comment]})))
  ∧ (∀ params,
       settles_as client (createIssue client this params)
         "Error creating issue"
         (IssueService_createIssue true
            (VObj {["fields" :=
                      VObj match customFields params with
                           | Some custom => spread (standardFields params) custom
                           | None => standardFields params
                           end]}))).
Proof.
  repeat split; intros; apply wrapped_call_settles.
Qed.

Lemma operations_settle_as_client_witness :
  (searchIssues stub_client JiraServiceInstance "project = X" None None None
     s0).1 = Rejected 1%nat
  ∧ heap (world (searchIssues stub_client JiraServiceInstance "project = X"
                   None None None s0).2)
    = [mkError "Unauthorized" None;
       mkError "Error searching issues: Unauthorized" (Some 0%nat)]
  ∧ (getIssue stub_client JiraServiceInstance "PROJ-1" None s0).1
    = Resolved (VObj {["key" := VStr "PROJ-1"]}).
Proof.
  destruct (operations_settle_as_client stub_client JiraServiceInstance)
    as (Hsearch & Hget & _).
  destruct (Hsearch "project = X" None None None s0) as (_ & _ & Hs & _ & Hh).
  destruct (Hget "PROJ-1" None s0) as (_ & _ & Hg & _).
  split; [exact Hs | split; [exact Hh | exact Hg]].
Defined.

(** ** Whole runs *)

Lemma operate_process_env client (op : Operation) (s : St) :
  process_env (operate client op s) = process_env s.
Proof.
  destruct op; cbn [operate]; try reflexivity;
    unfold searchIssues, getIssue, getIssueComments, postIssueComment,
      createIssue;
    rewrite handleApiOperation_process_env; unfold invoke;
    by destruct (client _ (world s)).
Qed.

Lemma perform_requests client (c : FacadeCall) (s : St) :
  ∃ made : list ClientCall,
    requests (perform client c s) = (requests s ++ made)%list
    ∧ length made = (if reaches_client c then 1 else 0)%nat.
Proof.
  destruct c as [host token fullBaseUrl | op]; cbn [perform].
  { exists []. by rewrite app_nil_r. }
  destruct op; cbn [operate reaches_client];
    try (unfold searchIssues, getIssue, getIssueComments, postIssueComment,
           createIssue;
         rewrite handleApiOperation_requests, invoke_requests;
         by eexists [_]).
  exists []. by rewrite app_nil_r.
Qed.

(** X4. Over any sequence of calls through this layer the log of client
    calls only grows, by one call for each operation and by none for a
    construction or a [validateConfig], so no operation is retried or
    skipped; and [process.env] is left as it was. *)
Theorem run_requests
    (client : ClientCall → World → OpResult * World)
    (calls : list FacadeCall) (s : St) :
  process_env (run client calls s) = process_env s
  ∧ ∃ made : list ClientCall,
      requests (run client calls s) = (requests s ++ made)%list
      ∧ length made = length (List.filter reaches_client calls).
Proof.
  revert s. induction calls as [| c calls IH]; intros s.
  { split; [reflexivity |]. exists []. by rewrite app_nil_r. }
  cbn [run foldl]. destruct (IH (perform client c s)) as (Henv & made & Hreq & Hlen).
  fold (run client calls (perform client c s)) in *.
  split.
  - rewrite Henv. destruct c as [host token fullBaseUrl | op]; cbn [perform];
      [reflexivity | apply operate_process_env].
  - destruct (perform_requests client c s) as (first & Hfirst & Hone).
    exists (first ++ made)%list. split.
    + by rewrite Hreq, Hfirst, app_assoc.
    + rewrite length_app, Hlen, Hone. cbn [List.filter].
      by destruct (reaches_client c).
Qed.

Lemma handleApiOperation_heap (operation : M OpResult) (C : string) (s : St) :
  heap (world (operation s).2)
  `prefix_of` heap (world (handleApiOperation operation C s).2).
Proof.
  unfold handleApiOperation, bind.
  destruct (operation s) as [[e | [v | e]] s1]; cbn;
    (reflexivity || by apply prefix_app_r).
Qed.

Lemma invoke_heap client (c : ClientCall) (s : St) :
  allocates_only client →
  heap (world s) `prefix_of` heap (world (invoke client c s).2).
Proof.
  intros Hc. unfold invoke. specialize (Hc c (world s)).
  by destruct (client c (world s)).
Qed.

Lemma stub_client_allocates_only : allocates_only stub_client.
Proof. intros [] w; cbn; (reflexivity || by apply prefix_app_r). Qed.

(** X5. Provided the generated client only adds error objects, every
    error object that exists before a sequence of calls through this layer
    is at the same location, unchanged, afterwards: a wrapped error's cause
    stays readable. *)
Theorem run_keeps_errors
    (client : ClientCall → World → OpResult * World)
    (calls : list FacadeCall) (s : St) (e : loc) (E : ErrorObj) :
  allocates_only client →
  heap (world s) !! e = Some E →
  heap (world (run client calls s)) !! e = Some E.
Proof.
  intros Hc. revert s.
  assert (Hstep : ∀ c s, heap (world s) `prefix_of` heap (world (perform client c s))).
  { intros [host token fullBaseUrl | op] s; cbn [perform]; [reflexivity |].
    destruct op; cbn [operate]; try reflexivity;
      unfold searchIssues, getIssue, getIssueComments, postIssueComment,
        createIssue;
      (etrans; [| apply handleApiOperation_heap]); by apply invoke_heap. }
  induction calls as [| c calls IH]; intros s HE; [exact HE |].
  cbn [run foldl]. apply IH.
  by apply (prefix_lookup_Some _ _ _ _ HE), Hstep.
Qed.

Lemma run_keeps_errors_witness :
  heap (world
    (run stub_client
       [Operate (DoPostIssueComment "PROJ-1" "hello");
        Construct "jira.example.org" "secret" None;
        Operate (DoSearchIssues "project = X" None None None)]
       (operate stub_client
          (DoSearchIssues "project = X" None None None) s0)))
  !! 1%nat
  = Some (mkError "Error searching issues: Unauthorized" (Some 0%nat)).
Proof.
  apply (run_keeps_errors stub_client
           [Operate (DoPostIssueComment "PROJ-1" "hello");
            Construct "jira.example.org" "secret" None;
            Operate (DoSearchIssues "project = X" None None None)]
           (operate stub_client
              (DoSearchIssues "project = X" None None None) s0)).
  - exact stub_client_allocates_only.
  - reflexivity.
Defined.

(** ** Further properties of [createIssue] *)

(** X6. The fields object that [createIssue] forwards has exactly the four
    standard property names together with the names of the custom fields:
    no standard field is ever dropped and nothing else is added. *)
Theorem createIssue_fields_names
    (client : ClientCall → World → OpResult * World)
    (this : JiraService) (params : CreateIssueParams) (s : St) :
  ∃ fields : gmap string value,
    requests (createIssue client this params s).2
    = (requests s
       ++ [IssueService_createIssue true (VObj {["fields" := VObj fields]})])%list
    ∧ dom fields
      = {["project"; "summary"; "description"; "issuetype"]}
        ∪ match customFields params with
          | Some custom => dom custom
          | None => ∅
          end.
Proof.
  exists (match customFields params with
          | Some custom => spread (standardFields params) custom
          | None => standardFields params
          end).
  split.
  - unfold createIssue.
    by rewrite handleApiOperation_requests, invoke_requests.
  - assert (Hstd : dom (standardFields params)
                   = ({["project"; "summary"; "description"; "issuetype"]}
                      : gset string)).
    { unfold standardFields. rewrite !dom_insert_L, dom_empty_L. set_solver. }
    destruct (customFields params) as [custom |].
    + unfold spread. rewrite dom_union_L, Hstd. set_solver.
    + rewrite Hstd. set_solver.
Qed.

(** X7. An empty [customFields] object is the same as none: [createIssue]
    then does exactly what it does without custom fields. *)
Theorem createIssue_empty_customFields
    (client : ClientCall → World → OpResult * World) (this : JiraService)
    (projectId summary description issueTypeId : string) (s : St) :
  createIssue client this
    (mkCreateIssueParams projectId summary description issueTypeId (Some ∅)) s
  = createIssue client this
      (mkCreateIssueParams projectId summary description issueTypeId None) s.
Proof.
  unfold createIssue. cbn [customFields]. unfold spread.
  by rewrite (left_id_L ∅ (∪)).
Qed.

(** ** Further properties of [validateConfig] *)

(** X8. What [validateConfig] returns, in full: the token-variable name is
    in the result exactly when the token variable is absent or empty; the
    combined descriptor is in it exactly when the host variable and the
    base-path variable are both absent or empty; so the result is empty
    exactly when the token is non-empty and the host or the base path is
    non-empty.  The result never holds anything else and never repeats a
    name. *)
Theorem validateConfig_complete (s : St) :
  let missing := λ name : string,
    process_env s !! name = None ∨ process_env s !! name = Some "" in
  let present := λ name : string,
    ∃ v : string, process_env s !! name = Some v ∧ v ≠ "" in
  ("JIRA_API_TOKEN" ∈ (validateConfig s).1 ↔ missing "JIRA_API_TOKEN")
  ∧ ("JIRA_HOST or JIRA_API_BASE_PATH" ∈ (validateConfig s).1
     ↔ missing "JIRA_HOST" ∧ missing "JIRA_API_BASE_PATH")
  ∧ ((validateConfig s).1 = []
     ↔ present "JIRA_API_TOKEN"
       ∧ (present "JIRA_HOST" ∨ present "JIRA_API_BASE_PATH"))
  ∧ NoDup (validateConfig s).1
  ∧ (∀ name : string,
       name ∈ (validateConfig s).1 →
       name = "JIRA_API_TOKEN" ∨ name = "JIRA_HOST or JIRA_API_BASE_PATH").
Proof.
  intros missing present. subst missing present. cbn beta.
  rewrite <- !truthy_false_iff, <- !truthy_true_iff, validateConfig_result.
  destruct (truthy (process_env s !! "JIRA_API_TOKEN")),
           (truthy (process_env s !! "JIRA_HOST")),
           (truthy (process_env s !! "JIRA_API_BASE_PATH")); cbn;
    (split; [| split; [| split; [| split]]]);
    try (repeat constructor; set_solver);
    try (split; [set_solver | naive_solver]);
    try set_solver; try naive_solver.
Qed.

Lemma validateConfig_complete_witness :
  (validateConfig
     (with_env (<["JIRA_API_TOKEN" := "secret"]>
                  (<["JIRA_API_BASE_PATH" := "https://jira.example.org/rest"]>
                     ∅)) s0)).1 = [].
Proof.
  apply (validateConfig_complete
           (with_env (<["JIRA_API_TOKEN" := "secret"]>
                        (<["JIRA_API_BASE_PATH" := "https://jira.example.org/rest"]>
                           ∅)) s0)).
  split.
  - exists "secret". split; [reflexivity | discriminate].
  - right. exists "https://jira.example.org/rest".
    split; [reflexivity | discriminate].
Defined.

(** X9. [validateConfig] looks at three variables only: setting or
    removing any other variable does not change its result. *)
Theorem validateConfig_other_variables (s : St) (name v : string) :
  name ≠ "JIRA_API_TOKEN" → name ≠ "JIRA_HOST" →
  name ≠ "JIRA_API_BASE_PATH" →
  (validateConfig (with_env (<[name := v]> (process_env s)) s)).1
  = (validateConfig s).1
  ∧ (validateConfig (with_env (delete name (process_env s)) s)).1
    = (validateConfig s).1.
Proof.
  intros Ht Hh Hb. rewrite !validateConfig_result. cbn [with_env process_env].
  by rewrite !lookup_insert_ne, !lookup_delete_ne.
Qed.

Lemma validateConfig_other_variables_witness :
  (validateConfig (with_env (<["JIRA_USER" := "me"]> ∅) s0)).1
  = (validateConfig s0).1
  ∧ (validateConfig (with_env (delete "JIRA_USER" ∅) s0)).1
    = (validateConfig s0).1.
Proof.
  apply (validateConfig_other_variables s0 "JIRA_USER" "me"); discriminate.
Defined.

(** X10. The validator and the constructor disagree on an empty base
    path.  With a non-empty token and host and the base-path variable set
    to the empty string, [validateConfig] reports nothing missing, yet a
    façade constructed with that base-path value as [fullBaseUrl] gets the
    empty string as base URL, not the URL derived from the host. *)
Theorem empty_base_path_passes_validation (s : St) (host token : string) :
  process_env s !! "JIRA_API_TOKEN" = Some token → token ≠ "" →
  process_env s !! "JIRA_HOST" = Some host → host ≠ "" →
  process_env s !! "JIRA_API_BASE_PATH" = Some "" →
  (validateConfig s).1 = []
  ∧ BASE (OpenAPI (world
      (constructor host token (process_env s !! "JIRA_API_BASE_PATH") s).2))
    = ""
  ∧ BASE (OpenAPI (world
      (constructor host token (process_env s !! "JIRA_API_BASE_PATH") s).2))
    ≠ "https://" +:+ host +:+ "/rest".
Proof.
  intros Ht Htoken Hh Hhost Hb. split; [| split].
  - by rewrite validateConfig_result, Ht, Hh, !truthy_Some.
  - by rewrite Hb.
  - rewrite Hb. cbn. discriminate.
Qed.

Lemma empty_base_path_passes_validation_witness :
  let s :=
    with_env (<["JIRA_API_TOKEN" := "secret"]>
                (<["JIRA_HOST" := "jira.example.org"]>
                   (<["JIRA_API_BASE_PATH" := ""]> ∅))) s0 in
  (validateConfig s).1 = []
  ∧ BASE (OpenAPI (world
      (constructor "jira.example.org" "secret"
         (process_env s !! "JIRA_API_BASE_PATH") s).2)) = ""
  ∧ BASE (OpenAPI (world
      (constructor "jira.example.org" "secret"
         (process_env s !! "JIRA_API_BASE_PATH") s).2))
    ≠ "https://" +:+ "jira.example.org" +:+ "/rest".
Proof.
  apply (empty_base_path_passes_validation
           (with_env (<["JIRA_API_TOKEN" := "secret"]>
                        (<["JIRA_HOST" := "jira.example.org"]>
                           (<["JIRA_API_BASE_PATH" := ""]> ∅))) s0)
           "jira.example.org" "secret");
    (reflexivity || discriminate).
Defined.
